(** * cmake-content-page: the maximum of two constants

    A shallow embedding of [src/main.cpp] and of the [cmake_tutorial::max]
    utility it calls.

    - C++ [int] is modelled as [Z]: the program performs no arithmetic, so
      no wrap-around is ever exercised, only comparison and printing.
    - The process is an explicit state (arguments, environment, standard
      input, the buffer of [std::cout], standard output) threaded through a
      small state monad.
    - [operator<<] is a type class with one instance per inserted type.
    - For termination and purity the program is also given as an
      interaction tree over the operations on the standard streams, run
      with fuel against the same process state. *)

From Stdlib Require Import ZArith String Ascii List Bool Lia.
From Stdlib Require Import Decimal DecimalString DecimalPos DecimalZ.
From ITree Require Import Core.ITreeDefinition.
Import ListNotations.

Local Open Scope string_scope.
Local Open Scope Z_scope.

(** ** The value type *)

(** [int]: a comparable scalar. *)
Definition int : Type := Z.

(** [operator<] on a value type. *)
Class Less (T : Type) := less : T -> T -> bool.

(** The data model's only invariant: the comparison is a strict total
    order, that is, of "less than", "equal" and "greater than" exactly one
    holds for any two values. *)
Class StrictTotalOrder (T : Type) `{Less T} : Prop := {
  less_irrefl : forall a : T, less a a = false;
  less_asym : forall a b : T, less a b = true -> less b a = false;
  less_trans : forall a b c : T,
      less a b = true -> less b c = true -> less a c = true;
  less_total : forall a b : T, less a b = true \/ a = b \/ less b a = true
}.

#[export] Instance int_less : Less int := Z.ltb.

(** ** namespace cmake_tutorial (max.hpp) *)

Module cmake_tutorial.

(** Modelled from the spec: the header [max.hpp], which defines
    [cmake_tutorial::max], is not among the sources.  The spec describes it
    as a generic two-argument function that "returns the value that is not
    smaller than the other, using a single less-than (or greater-than)
    comparison": one comparison, one branch, no side effects.  On a tie the
    value of the first argument is returned. *)
Definition max {T : Type} `{Less T} (a b : T) : T :=
  if less a b then b else a.

End cmake_tutorial.

(** ** The process state and its monad *)

Record world : Type := mkWorld {
  argv : list string;                (* command-line arguments *)
  environ : list (string * string);  (* environment variables *)
  stdin : string;                    (* standard input not read so far *)
  cout_buffer : string;              (* inserted into std::cout, not flushed *)
  stdout : string                    (* written to standard output *)
}.

Definition M (A : Type) : Type := world -> A * world.

Definition ret {A : Type} (x : A) : M A := fun w => (x, w).

Definition bind {A B : Type} (m : M A) (k : A -> M B) : M B :=
  fun w => let (x, w') := m w in k x w'.

Declare Scope stream_scope.
Delimit Scope stream_scope with stream.

Notation "m ;; k" := (bind m (fun _ => k))
  (at level 61, right associativity) : stream_scope.

(** ** namespace std: the part of <iostream> the program uses *)

Module std.

(** The newline character ['\n']. *)
Definition newline : string := String (ascii_of_nat 10) EmptyString.

(** Decimal text of an [int], as [operator<<(int)] produces it with the
    default formatting flags. *)
Definition to_string (n : int) : string :=
  NilZero.string_of_int (Z.to_int n).

(** [ostream::write]: the characters go to the stream's buffer. *)
Definition write (s : string) : M unit := fun w =>
  (tt, mkWorld (argv w) (environ w) (stdin w) (cout_buffer w ++ s) (stdout w)).

(** [ostream::flush]: the buffer is written to standard output. *)
Definition flush : M unit := fun w =>
  (tt, mkWorld (argv w) (environ w) (stdin w) "" (stdout w ++ cout_buffer w)).

(** A stream manipulator is a function on the stream. *)
Record manipulator : Type := Manip { apply_manip : M unit }.

(** [std::endl]: inserts a newline, then flushes. *)
Definition endl : manipulator := Manip (bind (write newline) (fun _ => flush)).

(** [std::cout], the object every insertion chain starts from. *)
Definition cout : M unit := ret tt.

End std.

(** [operator<<(std::ostream&, T)] *)
Class Insertable (T : Type) := insert : T -> M unit.

#[export] Instance insert_cstring : Insertable string := std.write.
#[export] Instance insert_int : Insertable int :=
  fun n => std.write (std.to_string n).
#[export] Instance insert_manipulator : Insertable std.manipulator :=
  std.apply_manip.

Notation "os << x" := (bind os (fun _ => insert x))
  (at level 50, left associativity) : stream_scope.

Local Open Scope stream_scope.

(** ** main.cpp *)

Section Main.

(** [cmake_tutorial::max] at type [int], as [main] sees it through the
    declaration in [max.hpp]: a function of two [int]s returning an [int]. *)
Variable max : int -> int -> int.

(** Lines 9-11 of main.cpp, with the two constants as parameters. *)
Definition main_with (a b : int) : M int :=
  (std.cout << "The maximum of " << a << " and " << b
            << " is: " << max a b << std.endl) ;;
  ret 0.

(** [int main()]: takes no parameters; lines 6-7 bind the constants. *)
Definition main : M int :=
  let a : int := 2 in
  let b : int := 4 in
  main_with a b.

End Main.

(** ** Running a process *)

Record outcome : Type := mkOutcome {
  exit_status : int;
  output : string;        (* everything written to standard output *)
  unread_input : string   (* what was left on standard input *)
}.

(** The runtime starts [entry] in a fresh state and, when it returns,
    flushes [std::cout] and exits with the returned value. *)
Definition run_process (entry : M int)
    (args : list string) (env : list (string * string)) (input : string)
  : outcome :=
  let w0 := mkWorld args env input "" "" in
  let (status, w1) := entry w0 in
  let (_, w2) := std.flush w1 in
  mkOutcome status (stdout w2) (stdin w2).

(** The program as built: [main] linked against [cmake_tutorial::max<int>]. *)
Definition program : M int := main (cmake_tutorial.max (T := int)).

(** The same translation unit with other constants in lines 6-7. *)
Definition program_with (a b : int) : M int :=
  main_with (cmake_tutorial.max (T := int)) a b.

(** ** The program as an interaction tree *)

(** What a process can do to its standard streams. *)
Variant stdioE : Type -> Type :=
| Put (s : string) : stdioE unit   (* characters inserted into std::cout *)
| Flush : stdioE unit              (* std::cout is flushed *)
| Get : stdioE ascii.              (* a character is read from standard input *)

(** [operator<] as an operation of the process: for a class type it is user
    code, which may itself use the streams. *)
Class LessTree (T : Type) := less_tree : T -> T -> itree stdioE bool.

(** On [int] the comparison is built in. *)
#[export] Instance int_less_tree : LessTree int :=
  fun a b => Ret (Z.ltb a b).

(** Modelled from the spec: an invocation of [cmake_tutorial::max] (header
    [max.hpp], not among the sources) as a computation.  The spec gives its
    algorithm as "one comparison, one branch": the comparison is performed,
    then one of the two arguments is returned. *)
Definition max_tree {T : Type} `{LessTree T} (a b : T) : itree stdioE T :=
  ITree.bind (less_tree a b) (fun c => Ret (if c then b else a)).

Module tree.

Definition write (s : string) : itree stdioE unit := ITree.trigger (Put s).

Definition flush : itree stdioE unit := ITree.trigger Flush.

Record manipulator : Type := Manip { apply_manip : itree stdioE unit }.

Definition endl : manipulator :=
  Manip (ITree.bind (write std.newline) (fun _ => flush)).

Definition cout : itree stdioE unit := Ret tt.

End tree.

Class InsertableTree (T : Type) := insert_tree : T -> itree stdioE unit.

#[export] Instance insert_tree_cstring : InsertableTree string := tree.write.
#[export] Instance insert_tree_int : InsertableTree int :=
  fun n => tree.write (std.to_string n).
#[export] Instance insert_tree_manipulator
  : InsertableTree tree.manipulator := tree.apply_manip.

Declare Scope tree_scope.
Delimit Scope tree_scope with tree.

(** [os << x] for a value [x], and for the value a call [t] returns: the
    stream expression on the left is evaluated first, then the call, then
    the insertion. *)
Notation "os <<< x" := (ITree.bind os (fun _ => insert_tree x))
  (at level 50, left associativity) : tree_scope.
Notation "os <<! t" :=
  (ITree.bind os (fun _ => ITree.bind t (fun x => insert_tree x)))
  (at level 50, left associativity) : tree_scope.

Section MainTree.

(** An invocation of [cmake_tutorial::max] at type [int]. *)
Variable max : int -> int -> itree stdioE int.

(** Lines 9-11 of main.cpp, with the two constants as parameters. *)
Definition main_tree_with (a b : int) : itree stdioE int :=
  ITree.bind
    (tree.cout <<< "The maximum of " <<< a <<< " and " <<< b
               <<< " is: " <<! max a b <<< tree.endl)%tree
    (fun _ => Ret 0).

(** [int main()] *)
Definition main_tree : itree stdioE int :=
  let a : int := 2 in
  let b : int := 4 in
  main_tree_with a b.

End MainTree.

(** Running a tree against the process state, one operation per unit of
    fuel.  [Put] and [Flush] act as [std.write] and [std.flush]; [Get] takes
    the next character of standard input and blocks when there is none.
    [None]: the fuel ran out, or the process is blocked. *)
Fixpoint run_tree {R : Type} (fuel : nat) (t : itree stdioE R) (w : world)
  : option (R * world) :=
  match fuel with
  | O => None
  | S fuel' =>
      match observe t with
      | RetF r => Some (r, w)
      | TauF t' => run_tree fuel' t' w
      | VisF e k =>
          match e in stdioE X
                return (X -> itree stdioE R) -> option (R * world) with
          | Put s => fun k => run_tree fuel' (k tt) (snd (std.write s w))
          | Flush => fun k => run_tree fuel' (k tt) (snd (std.flush w))
          | Get => fun k =>
              match stdin w with
              | EmptyString => None
              | String c rest =>
                  run_tree fuel' (k c)
                    (mkWorld (argv w) (environ w) rest
                       (cout_buffer w) (stdout w))
              end
          end k
      end
  end.

(** ** Vocabulary for statements about the output *)

(** The strings of [subs] occur in [s] one after the other, without
    overlapping. *)
Fixpoint ContainsInOrder (subs : list string) (s : string) : Prop :=
  match subs with
  | [] => True
  | sub :: rest =>
      exists l r : string, s = l ++ sub ++ r /\ ContainsInOrder rest r
  end.

(** The character [c] occurs in [s]. *)
Fixpoint occurs (c : ascii) (s : string) : bool :=
  match s with
  | EmptyString => false
  | String d s' => Ascii.eqb c d || occurs c s'
  end.

(** The characters decimal text is made of: the ten digits and the sign. *)
Definition numeric (c : ascii) : bool :=
  existsb (Ascii.eqb c)
    ["0"; "1"; "2"; "3"; "4"; "5"; "6"; "7"; "8"; "9"; "-"]%char.

(** Number of newline characters of [s]. *)
Fixpoint newlines (s : string) : nat :=
  match s with
  | EmptyString => O
  | String c s' =>
      ((if Ascii.eqb c (ascii_of_nat 10) then 1 else 0) + newlines s')%nat
  end.

(** The line [main_with] prints, without its newline. *)
Definition line_of (max : int -> int -> int) (a b : int) : string :=
  "The maximum of " ++ std.to_string a ++ " and " ++ std.to_string b
  ++ " is: " ++ std.to_string (max a b).

(** * Proofs *)

Example run_as_built :
  run_process program [] [] "" =
  mkOutcome 0 ("The maximum of 2 and 4 is: 4" ++ std.newline) "".
Proof. reflexivity. Qed.

Example run_tree_as_built :
  run_tree 9 (main_tree (max_tree (T := int)))
    (mkWorld [] [] "" "" "") =
  Some (0, mkWorld [] [] "" ""
             ("The maximum of 2 and 4 is: 4" ++ String "010" EmptyString)).
Proof. reflexivity. Qed.

Example run_tree_out_of_fuel :
  run_tree 8 (main_tree (max_tree (T := int))) (mkWorld [] [] "" "" "")
  = None.
Proof. reflexivity. Qed.

Example run_tree_blocked :
  run_tree 10 (ITree.bind (ITree.trigger Get) (fun _ => Ret 0))
    (mkWorld [] [] "" "" "") = None.
Proof. reflexivity. Qed.

Example to_string_negative : std.to_string (-120) = "-120".
Proof. reflexivity. Qed.

Example to_string_zero : std.to_string 0 = "0".
Proof. reflexivity. Qed.

(** ** The comparison on [int] *)

#[export] Instance int_strict_total_order : StrictTotalOrder int.
Proof.
  split; unfold less, int_less.
  - intros a. apply Z.ltb_irrefl.
  - intros a b L. apply Z.ltb_ge. apply Z.ltb_lt in L. lia.
  - intros a b c L1 L2. apply Z.ltb_lt. apply Z.ltb_lt in L1, L2. lia.
  - intros a b. destruct (Z.lt_trichotomy a b) as [L | [E | G]].
    + left. now apply Z.ltb_lt.
    + right. now left.
    + right. right. now apply Z.ltb_lt.
Qed.

(** ** Strings *)

Lemma append_nil_r (s : string) : s ++ "" = s.
Proof. induction s as [| c s IH]; simpl; [reflexivity | now rewrite IH]. Qed.

Lemma append_assoc (s t u : string) : (s ++ t) ++ u = s ++ (t ++ u).
Proof. induction s as [| c s IH]; simpl; [reflexivity | now rewrite IH]. Qed.

Lemma newlines_app (s t : string) :
  newlines (s ++ t) = (newlines s + newlines t)%nat.
Proof.
  induction s as [| c s IH]; simpl; [reflexivity |].
  rewrite IH. lia.
Qed.

Lemma newlines_app_O (s t : string) :
  newlines s = O -> newlines t = O -> newlines (s ++ t) = O.
Proof. intros Hs Ht. rewrite newlines_app, Hs, Ht. reflexivity. Qed.

Lemma newlines_string_of_uint (d : uint) :
  newlines (NilEmpty.string_of_uint d) = O.
Proof.
  induction d as [| d IH | d IH | d IH | d IH | d IH
                  | d IH | d IH | d IH | d IH | d IH];
    [reflexivity | exact IH ..].
Qed.

Lemma newlines_to_string (n : int) : newlines (std.to_string n) = O.
Proof.
  unfold std.to_string, NilZero.string_of_int, NilZero.string_of_uint.
  destruct (Z.to_int n) as [d | d]; destruct d; simpl;
    try reflexivity; apply newlines_string_of_uint.
Qed.

(** ** What [main] does to the process state *)

Lemma main_with_run (max : int -> int -> int) (a b : int) (w : world) :
  main_with max a b w =
  (0, mkWorld (argv w) (environ w) (stdin w) ""
        (stdout w ++ cout_buffer w ++ line_of max a b ++ std.newline)).
Proof.
  unfold main_with, bind, ret, insert, insert_cstring, insert_int,
    insert_manipulator, std.cout, std.endl, std.apply_manip, std.write,
    std.flush, bind, ret, line_of.
  cbn [argv environ stdin cout_buffer stdout].
  repeat rewrite append_assoc. reflexivity.
Qed.

Lemma run_process_main_with (max : int -> int -> int) (a b : int)
    (args : list string) (env : list (string * string)) (input : string) :
  run_process (main_with max a b) args env input =
  mkOutcome 0 (line_of max a b ++ std.newline) input.
Proof.
  unfold run_process. rewrite main_with_run.
  cbn [std.flush argv environ stdin cout_buffer stdout append].
  rewrite append_nil_r. reflexivity.
Qed.

Lemma run_process_main (max : int -> int -> int)
    (args : list string) (env : list (string * string)) (input : string) :
  run_process (main max) args env input =
  mkOutcome 0 (line_of max 2 4 ++ std.newline) input.
Proof. exact (run_process_main_with max 2 4 args env input). Qed.

Lemma newlines_line_of (max : int -> int -> int) (a b : int) :
  newlines (line_of max a b) = O.
Proof.
  unfold line_of.
  do 5 (apply newlines_app_O;
        [first [apply newlines_to_string | reflexivity] |]).
  apply newlines_to_string.
Qed.

Lemma line_of_in_order (max : int -> int -> int) (a b : int) (tail : string) :
  ContainsInOrder
    [std.to_string a; std.to_string b; std.to_string (max a b)]
    (line_of max a b ++ tail).
Proof.
  unfold line_of.
  exists "The maximum of ",
    (" and " ++ std.to_string b ++ " is: " ++ std.to_string (max a b) ++ tail).
  split.
  { repeat rewrite append_assoc. reflexivity. }
  exists " and ", (" is: " ++ std.to_string (max a b) ++ tail).
  split; [reflexivity |].
  exists " is: ", tail. split; [reflexivity | exact I].
Qed.

(** ** Reading the printed line back *)

Lemma append_cancel_l (p s t : string) : p ++ s = p ++ t -> s = t.
Proof.
  induction p as [| c p IH]; simpl; intros E; [exact E |].
  injection E as E. exact (IH E).
Qed.

(** Text in which [c] does not occur ends at the first [c]. *)
Lemma split_at_first (c : ascii) (s s' t t' : string) :
  occurs c s = false -> occurs c s' = false ->
  s ++ String c t = s' ++ String c t' -> s = s' /\ t = t'.
Proof.
  revert s'. induction s as [| d s IH]; intros [| d' s'] Hs Hs' E;
    simpl in *.
  - injection E as E. split; [reflexivity | exact E].
  - injection E as Ec _. subst d'.
    rewrite Ascii.eqb_refl in Hs'. discriminate Hs'.
  - injection E as Ec _. subst d.
    rewrite Ascii.eqb_refl in Hs. discriminate Hs.
  - injection E as Ed E. subst d'.
    apply orb_false_iff in Hs, Hs'.
    destruct (IH s' (proj2 Hs) (proj2 Hs') E) as [-> ->].
    split; reflexivity.
Qed.

Lemma occurs_string_of_uint (c : ascii) (d : uint) :
  numeric c = false -> occurs c (NilEmpty.string_of_uint d) = false.
Proof.
  unfold numeric. cbn [existsb]. intros N.
  repeat (apply orb_false_iff in N; destruct N as [? N]).
  induction d as [| d IH | d IH | d IH | d IH | d IH
                  | d IH | d IH | d IH | d IH | d IH];
    cbn [NilEmpty.string_of_uint occurs];
    [reflexivity | apply orb_false_iff; split; assumption ..].
Qed.

Lemma occurs_to_string (c : ascii) (n : int) :
  numeric c = false -> occurs c (std.to_string n) = false.
Proof.
  intros N.
  assert (U : forall d : uint, occurs c (NilZero.string_of_uint d) = false).
  { intros d. destruct d; try exact (occurs_string_of_uint c _ N).
    exact (occurs_string_of_uint c (D0 Nil) N). }
  unfold std.to_string, NilZero.string_of_int.
  destruct (Z.to_int n) as [d | d]; [exact (U d) |].
  cbn [occurs]. rewrite (U d).
  unfold numeric in N. cbn [existsb] in N.
  repeat (apply orb_false_iff in N; destruct N as [? N]).
  apply orb_false_iff. split; [assumption | reflexivity].
Qed.

Lemma to_int_not_nil (n : int) :
  Z.to_int n <> Pos Nil /\ Z.to_int n <> Neg Nil.
Proof.
  destruct n as [| p | p]; cbn [Z.to_int]; split; try discriminate;
    intros E; injection E as E;
    exact (DecimalPos.Unsigned.to_uint_nonnil p E).
Qed.

(** The decimal text of an [int] parses back to it. *)
Lemma to_string_parses_back (n : int) :
  option_map Z.of_int (NilZero.int_of_string (std.to_string n)) = Some n.
Proof.
  unfold std.to_string.
  destruct (to_int_not_nil n) as [P N].
  rewrite (NilZero.isi _ P N). cbn [option_map].
  rewrite DecimalZ.of_to. reflexivity.
Qed.

Lemma to_string_inj (n m : int) :
  std.to_string n = std.to_string m -> n = m.
Proof.
  intros E. pose proof (to_string_parses_back n) as Pn.
  rewrite E, to_string_parses_back in Pn.
  injection Pn as Pn. symmetry. exact Pn.
Qed.

(** The printed line, cut at the blanks that end the two inputs and at the
    newline that ends the maximum. *)
Lemma line_of_fields (max : int -> int -> int) (a b : int) :
  line_of max a b ++ std.newline =
  "The maximum of " ++ std.to_string a ++ String " "
    ("and " ++ std.to_string b ++ String " "
       ("is: " ++ std.to_string (max a b)
          ++ String (ascii_of_nat 10) EmptyString)).
Proof.
  unfold line_of, std.newline. repeat rewrite append_assoc. reflexivity.
Qed.

Lemma line_of_inj (max max' : int -> int -> int) (a b a' b' : int) :
  line_of max a b ++ std.newline = line_of max' a' b' ++ std.newline ->
  a = a' /\ b = b' /\ max a b = max' a' b'.
Proof.
  rewrite !line_of_fields. intros E.
  apply append_cancel_l in E.
  apply split_at_first in E;
    [| apply occurs_to_string; reflexivity ..].
  destruct E as [Ea E].
  apply (append_cancel_l "and ") in E.
  apply split_at_first in E;
    [| apply occurs_to_string; reflexivity ..].
  destruct E as [Eb E].
  apply (append_cancel_l "is: ") in E.
  apply split_at_first in E;
    [| apply occurs_to_string; reflexivity ..].
  destruct E as [Em _].
  repeat split; apply to_string_inj; assumption.
Qed.

(** ** Running interaction trees *)

Lemma observe_bind {R U : Type} (t : itree stdioE R)
    (k : R -> itree stdioE U) :
  observe (ITree.bind t k) =
  observe (match observe t with
           | RetF r => k r
           | TauF t' => Tau (ITree.bind t' k)
           | VisF e h => Vis e (fun x => ITree.bind (h x) k)
           end).
Proof. reflexivity. Qed.

(** A run only looks at a tree through [observe]. *)
Lemma run_tree_observe {R : Type} (t t' : itree stdioE R)
    (fuel : nat) (w : world) :
  observe t = observe t' -> run_tree fuel t w = run_tree fuel t' w.
Proof.
  intros E. destruct fuel as [| fuel]; [reflexivity |].
  cbn [run_tree]. rewrite E. reflexivity.
Qed.

(** More fuel does not change the result of a run. *)
Lemma run_tree_mono {R : Type} (n : nat) :
  forall (t : itree stdioE R) (w : world) (res : R * world),
    run_tree n t w = Some res ->
    forall m : nat, (n <= m)%nat -> run_tree m t w = Some res.
Proof.
  induction n as [| n IH]; intros t w res Hr m Le; [discriminate Hr |].
  destruct m as [| m]; [lia |].
  cbn [run_tree] in Hr |- *.
  destruct (observe t) as [r | t' | X e k].
  - exact Hr.
  - apply (IH _ _ _ Hr). lia.
  - destruct e.
    + apply (IH _ _ _ Hr). lia.
    + apply (IH _ _ _ Hr). lia.
    + destruct (stdin w) as [| c rest]; [discriminate Hr |].
      apply (IH _ _ _ Hr). lia.
Qed.

(** Sequencing: the fuel of [t], less the one unit of its final return,
    plus the fuel of the continuation. *)
Lemma run_tree_bind {R U : Type} (n : nat) :
  forall (t : itree stdioE R) (k : R -> itree stdioE U)
         (w w' : world) (r : R) (m : nat) (res : U * world),
    run_tree (S n) t w = Some (r, w') ->
    run_tree m (k r) w' = Some res ->
    run_tree (n + m) (ITree.bind t k) w = Some res.
Proof.
  induction n as [| n IH]; intros t k w w' r m res Ht Hk.
  - cbn [run_tree] in Ht.
    destruct (observe t) as [r0 | t' | X e h] eqn:Ot.
    + injection Ht as -> ->. cbn [Nat.add].
      rewrite (run_tree_observe (ITree.bind t k) (k r) m w'); [exact Hk |].
      rewrite observe_bind, Ot. reflexivity.
    + discriminate Ht.
    + destruct e; try discriminate Ht.
      destruct (stdin w); discriminate Ht.
  - cbn [run_tree] in Ht. cbn [Nat.add run_tree].
    rewrite observe_bind.
    destruct (observe t) as [r0 | t' | X e h] eqn:Ot.
    + injection Ht as -> ->.
      assert (Hk' : run_tree (S (n + m)) (k r) w' = Some res).
      { apply (run_tree_mono m _ _ _ Hk). lia. }
      cbn [run_tree] in Hk'. exact Hk'.
    + cbn [observe _observe]. exact (IH _ _ _ _ _ _ _ Ht Hk).
    + cbn [observe _observe]. destruct e.
      * exact (IH _ _ _ _ _ _ _ Ht Hk).
      * exact (IH _ _ _ _ _ _ _ Ht Hk).
      * destruct (stdin w) as [| c rest]; [discriminate Ht |].
        exact (IH _ _ _ _ _ _ _ Ht Hk).
Qed.

(** On [int] an invocation of [max] is one step that returns the value of
    [cmake_tutorial.max] and leaves the process state alone. *)
Lemma run_max_tree_int (a b : int) (w : world) :
  run_tree 1 (max_tree a b) w = Some (cmake_tutorial.max a b, w).
Proof. reflexivity. Qed.

(** ** The max utility *)

Section MaxProperties.

Context {T : Type} `{StrictTotalOrder T}.

Lemma max_cases (a b : T) :
  cmake_tutorial.max a b = a \/ cmake_tutorial.max a b = b.
Proof.
  unfold cmake_tutorial.max. destruct (less a b); [right | left]; reflexivity.
Qed.

Lemma max_not_less_left (a b : T) : less (cmake_tutorial.max a b) a = false.
Proof.
  unfold cmake_tutorial.max. destruct (less a b) eqn:E.
  - apply less_asym. exact E.
  - apply less_irrefl.
Qed.

Lemma max_not_less_right (a b : T) : less (cmake_tutorial.max a b) b = false.
Proof.
  unfold cmake_tutorial.max. destruct (less a b) eqn:E.
  - apply less_irrefl.
  - exact E.
Qed.

End MaxProperties.

(** C1. Over a strictly totally ordered value type, [max a b] is the
    reference maximum: it is [b] when [a < b], it is [a] when [a > b], it is
    [a] when the two arguments are equal; and the returned value is smaller
    than neither argument. *)
Theorem max_is_reference_maximum
    (T : Type) `{StrictTotalOrder T} (a b : T) :
  (less a b = true -> cmake_tutorial.max a b = b) /\
  (less b a = true -> cmake_tutorial.max a b = a) /\
  (a = b -> cmake_tutorial.max a b = a) /\
  less (cmake_tutorial.max a b) a = false /\
  less (cmake_tutorial.max a b) b = false.
Proof.
  repeat split.
  - intros L. unfold cmake_tutorial.max. rewrite L. reflexivity.
  - intros G. unfold cmake_tutorial.max.
    rewrite (less_asym _ _ G). reflexivity.
  - intros ->. unfold cmake_tutorial.max.
    rewrite less_irrefl. reflexivity.
  - apply max_not_less_left.
  - apply max_not_less_right.
Qed.

Lemma max_is_reference_maximum_witness :
  cmake_tutorial.max (2 : int) 4 = 4 /\
  cmake_tutorial.max (4 : int) 2 = 4 /\
  cmake_tutorial.max (7 : int) 7 = 7.
Proof.
  split; [| split].
  - exact (proj1 (max_is_reference_maximum int 2 4) eq_refl).
  - exact (proj1 (proj2 (max_is_reference_maximum int 4 2)) eq_refl).
  - exact (proj1 (proj2 (proj2 (max_is_reference_maximum int 7 7))) eq_refl).
Defined.

(** C4. Over a strictly totally ordered value type, swapping the two
    arguments of [max] does not change the returned value. *)
Theorem max_comm (T : Type) `{StrictTotalOrder T} (a b : T) :
  cmake_tutorial.max a b = cmake_tutorial.max b a.
Proof.
  unfold cmake_tutorial.max.
  destruct (less_total a b) as [L | [E | G]].
  - rewrite L, (less_asym _ _ L). reflexivity.
  - subst b. destruct (less a a); reflexivity.
  - rewrite G, (less_asym _ _ G). reflexivity.
Qed.

Lemma max_comm_witness :
  cmake_tutorial.max (2 : int) 4 = cmake_tutorial.max (4 : int) 2.
Proof.
  exact (max_comm int 2 4).
Defined.

(** C7. [max] is a pure function.  Over a value type whose comparison is
    itself pure (it returns within [n] steps a result that does not depend on
    the process state, and leaves that state alone), an invocation of [max]
    returns within [n] steps and has no side effect: it writes nothing,
    flushes nothing, reads nothing.  Two invocations with equal arguments,
    in whatever states they happen, return equal results. *)
Theorem max_is_pure (T : Type) `{LessTree T} (n : nat)
    (a1 b1 a2 b2 : T) (w1 w2 : world) :
  (forall a b : T, exists c : bool,
      forall w : world, run_tree n (less_tree a b) w = Some (c, w)) ->
  a1 = a2 -> b1 = b2 ->
  exists v : T,
    run_tree n (max_tree a1 b1) w1 = Some (v, w1) /\
    run_tree n (max_tree a2 b2) w2 = Some (v, w2).
Proof.
  intros Pure -> ->. destruct (Pure a2 b2) as [c Hc].
  destruct n as [| n]; [discriminate (Hc w1) |].
  exists (if c then b2 else a2).
  assert (Step : forall w : world,
             run_tree (n + 1) (max_tree a2 b2) w
             = Some (if c then b2 else a2, w)).
  { intros w. unfold max_tree.
    apply (run_tree_bind n _ _ w w c 1 _ (Hc w)). reflexivity. }
  replace (S n) with (n + 1)%nat by lia.
  split; apply Step.
Qed.

Lemma max_is_pure_witness :
  let w1 := mkWorld ["main"] [] "" "" "" in
  let w2 := mkWorld ["main"; "7"] [("HOME", "/root")] "7" "pending" "out" in
  exists v : int,
    run_tree 1 (max_tree (2 : int) 4) w1 = Some (v, w1) /\
    run_tree 1 (max_tree (2 : int) 4) w2 = Some (v, w2).
Proof.
  intros w1 w2.
  apply (max_is_pure int 1 2 4 2 4 w1 w2); [| reflexivity | reflexivity].
  intros a b. exists (Z.ltb a b). intros w. reflexivity.
Defined.

(** ** The program *)

(** C2. A run of the program as built writes text in which "2", "4" and the
    computed maximum, "4", occur in this order, and exits with status 0. *)
Theorem as_built_prints_2_4_and_4
    (args : list string) (env : list (string * string)) (input : string) :
  let r := run_process program args env input in
  std.to_string (cmake_tutorial.max (2 : int) 4) = "4" /\
  ContainsInOrder
    ["2"; "4"; std.to_string (cmake_tutorial.max (2 : int) 4)] (output r) /\
  exit_status r = 0.
Proof.
  intros r. subst r. unfold program. rewrite run_process_main.
  split; [reflexivity | split; [| reflexivity]].
  exact (line_of_in_order (cmake_tutorial.max (T := int)) 2 4 std.newline).
Qed.

(** C3. Every run writes exactly one line to standard output: text
    without a newline, then one newline.  In that line "2", "4" and the
    decimal text of the computed maximum occur in this order; this holds
    whatever function [max.hpp] supplies. *)
Theorem run_writes_exactly_one_line (max : int -> int -> int)
    (args : list string) (env : list (string * string)) (input : string) :
  let r := run_process (main max) args env input in
  exists text m : string,
    output r = text ++ String "010" EmptyString /\
    newlines text = O /\
    option_map Z.of_int (NilZero.int_of_string m) = Some (max 2 4) /\
    ContainsInOrder ["2"; "4"; m] text.
Proof.
  intros r. subst r. rewrite run_process_main. cbn [output].
  exists (line_of max 2 4), (std.to_string (max 2 4)).
  split; [reflexivity | split; [| split]].
  - exact (newlines_line_of max 2 4).
  - exact (to_string_parses_back (max 2 4)).
  - rewrite <- (append_nil_r (line_of max 2 4)).
    exact (line_of_in_order max 2 4 "").
Qed.

(** C5. Every run ends with exit status 0: no arguments, environment or
    input lead to another status. *)
Theorem exit_status_is_always_zero (max : int -> int -> int) :
  (forall args env input,
      exit_status (run_process (main max) args env input) = 0) /\
  ~ (exists args env input,
        exit_status (run_process (main max) args env input) <> 0).
Proof.
  assert (Z0 : forall args env input,
             exit_status (run_process (main max) args env input) = 0).
  { intros args env input. rewrite run_process_main. reflexivity. }
  split; [exact Z0 |].
  intros (args & env & input & N). apply N. exact (Z0 args env input).
Qed.

(** C6. With the two inputs 7 and 7, that is, with these constants in
    lines 6-7, every run outputs "The maximum of 7 and 7 is: 7" and a
    newline: "7" as both inputs and as the maximum.  It exits with
    status 0. *)
Theorem constants_7_and_7_print_7
    (args : list string) (env : list (string * string)) (input : string) :
  let r := run_process (program_with 7 7) args env input in
  output r = "The maximum of 7 and 7 is: 7" ++ String "010" EmptyString /\
  ContainsInOrder ["7"; "7"; "7"] (output r) /\
  exit_status r = 0.
Proof.
  intros r. subst r. unfold program_with. rewrite run_process_main_with.
  split; [reflexivity | split; [| reflexivity]].
  exact (line_of_in_order (cmake_tutorial.max (T := int)) 7 7 std.newline).
Qed.

(** C8. The entry point consumes no command-line arguments and no
    environment variables (nor any input): any two runs have the same
    output and the same exit status. *)
Theorem runs_do_not_depend_on_args_or_env (max : int -> int -> int)
    (args1 args2 : list string) (env1 env2 : list (string * string))
    (input1 input2 : string) :
  let r1 := run_process (main max) args1 env1 input1 in
  let r2 := run_process (main max) args2 env2 input2 in
  output r1 = output r2 /\ exit_status r1 = exit_status r2.
Proof.
  intros r1 r2. subst r1 r2. rewrite !run_process_main.
  split; reflexivity.
Qed.

(** C9. The two inputs are the constants 2 and 4 on every run: whatever a
    run is handed (7 and 7, say), its output is exactly the line
    "The maximum of 2 and 4 is: " followed by the value of [max 2 4]. *)
Theorem inputs_are_the_constants_2_and_4 (max : int -> int -> int)
    (args : list string) (env : list (string * string)) (input : string) :
  main max = main_with max 2 4 /\
  output (run_process (main max) args env input) =
    "The maximum of 2 and 4 is: " ++ std.to_string (max 2 4) ++ std.newline /\
  output (run_process (main max) ["main"; "7"; "7"] [] "7 7") =
    output (run_process (main max) args env input).
Proof.
  split; [reflexivity |]. rewrite !run_process_main.
  cbn [output]. split; [| reflexivity].
  unfold line_of. repeat rewrite append_assoc. reflexivity.
Qed.

(** C10. The program always terminates.  Run as a sequence of stream
    operations, [main] comes to its return from every process state, also
    with standard input empty, within the steps of the call of [max] and
    eight more: there is no loop and no read to wait on.  The run ends in
    the status and the state that [main] gives.  The call of [max] is
    assumed to return, within [n] steps and without side effect. *)
Theorem program_terminates (max : int -> int -> int)
    (max_call : int -> int -> itree stdioE int) (n : nat) :
  (forall (a b : int) (w : world),
      run_tree n (max_call a b) w = Some (max a b, w)) ->
  forall (w : world) (fuel : nat),
    (n + 8 <= fuel)%nat ->
    run_tree fuel (main_tree max_call) w = Some (main max w) /\
    stdin (snd (main max w)) = stdin w.
Proof.
  intros Hmax w fuel Le. split; [| reflexivity].
  destruct n as [| n]; [discriminate (Hmax 0 0 w) |].
  apply (run_tree_mono (n + 9)); [| lia].
  change (main_tree max_call) with (main_tree_with max_call 2 4).
  change (main max w) with (main_with max 2 4 w).
  unfold main_tree_with.
  set (labels := (tree.cout <<< "The maximum of " <<< (2 : int) <<< " and "
                            <<< (4 : int) <<< " is: ")%tree).
  set (call := ITree.bind (max_call 2 4) (fun x : int => insert_tree x)).
  set (w5 := snd (std.write " is: "
               (snd (std.write (std.to_string 4)
                 (snd (std.write " and "
                   (snd (std.write (std.to_string 2)
                     (snd (std.write "The maximum of " w)))))))))).
  assert (Labels : run_tree 6 labels w = Some (tt, w5)) by reflexivity.
  assert (Call : run_tree (n + 2) call w5
                 = Some (tt, snd (std.write (std.to_string (max 2 4)) w5))).
  { apply (run_tree_bind n (max_call 2 4) _ w5 w5 (max 2 4) 2 _
             (Hmax 2 4 w5)).
    reflexivity. }
  assert (Value : run_tree (S (n + 6))
                    (ITree.bind labels (fun _ => call)) w
                  = Some (tt, snd (std.write (std.to_string (max 2 4)) w5))).
  { replace (S (n + 6)) with (5 + (n + 2))%nat by lia.
    exact (run_tree_bind 5 labels (fun _ => call) w w5 tt (n + 2) _
             Labels Call). }
  assert (Line : run_tree (S (n + 8))
                   (ITree.bind (ITree.bind labels (fun _ => call))
                      (fun _ => insert_tree tree.endl)) w
                 = Some (tt, snd (std.flush (snd (std.write std.newline
                     (snd (std.write (std.to_string (max 2 4)) w5))))))).
  { replace (S (n + 8)) with ((n + 6) + 3)%nat by lia.
    apply (run_tree_bind (n + 6) _ _ w _ tt 3 _ Value). reflexivity. }
  replace (n + 9)%nat with ((n + 8) + 1)%nat by lia.
  apply (run_tree_bind (n + 8) _ _ w _ tt 1 _ Line).
  reflexivity.
Qed.

Lemma program_terminates_witness :
  let w := mkWorld ["main"; "7"; "7"] [] "" "" "" in
  run_tree 9 (main_tree (max_tree (T := int))) w
  = Some (main (cmake_tutorial.max (T := int)) w) /\
  stdin (snd (main (cmake_tutorial.max (T := int)) w)) = stdin w.
Proof.
  intros w.
  apply (program_terminates (cmake_tutorial.max (T := int))
           (max_tree (T := int)) 1).
  - intros a b w0. reflexivity.
  - lia.
Defined.

(** ** Further properties of [main] *)


(** X2. The printed line can be read back without ambiguity: two runs of
    lines 9-11 that write the same output were given the same two inputs
    and computed the same maximum. *)
Theorem printed_line_determines_values
    (max max' : int -> int -> int) (a b a' b' : int)
    (args args' : list string) (env env' : list (string * string))
    (input input' : string) :
  output (run_process (main_with max a b) args env input) =
    output (run_process (main_with max' a' b') args' env' input') ->
  a = a' /\ b = b' /\ max a b = max' a' b'.
Proof.
  rewrite !run_process_main_with. cbn [output]. apply line_of_inj.
Qed.

Lemma printed_line_determines_values_witness :
  (2 : int) = 2 /\ (4 : int) = 4 /\
  cmake_tutorial.max (2 : int) 4 = Z.max 2 4.
Proof.
  apply (printed_line_determines_values
           (cmake_tutorial.max (T := int)) Z.max 2 4 2 4
           [] ["main"; "7"] [] [] "" "7 7").
  vm_compute. reflexivity.
Defined.

(** X3. The output shows the computed maximum faithfully: linked against
    two implementations of [max], the program writes the same output exactly
    when the two return the same value for 2 and 4. *)
Theorem outputs_agree_iff_maxima_agree (max max' : int -> int -> int)
    (args args' : list string) (env env' : list (string * string))
    (input input' : string) :
  output (run_process (main max) args env input) =
    output (run_process (main max') args' env' input')
  <-> max 2 4 = max' 2 4.
Proof.
  rewrite !run_process_main. cbn [output]. split.
  - intros E. exact (proj2 (proj2 (line_of_inj max max' 2 4 2 4 E))).
  - intros E. unfold line_of. rewrite E. reflexivity.
Qed.
